(** * pytradelib.bar: Frequency, Bar and Bars

    A shallow embedding of [src/pytradelib/bar.py] and the properties of
    its three classes.  The module is Python 2 code ([dict.iteritems],
    [unicode]); where the interpreter matters the model follows
    CPython 2.7.

    Modelling conventions
    - A number stored in a bar is a Python [int]/[long] (unbounded) or a
      finite [float] (an IEEE 754 binary64 value, signed zeros
      included).  Comparisons ([>=], [<=], [!=]) compare the exact
      values, as Python does between ints and floats.  Arithmetic is
      Python's: a product of two ints is exact, every other product and
      every quotient is computed in binary64 (round to nearest, ties to
      even; [SpecFloat]), an int being first converted to a float, which
      raises [OverflowError] beyond the binary64 range.
    - A [datetime.datetime] is the record of its seven numeric fields
      (naive, no time zone).
    - A method that can raise returns a [result]; the exceptions are the
      Python classes the source raises or lets escape.
    - A Python [dict] is the list of its items in iteration order, keys
      pairwise distinct ([wf_dict]).
    - A method that assigns to [self] returns the updated object. *)

From Stdlib Require Import ZArith QArith List String Ascii Bool Lia.
From Stdlib Require Import DecimalString Permutation Lqa SpecFloat.
Import ListNotations.

Set Implicit Arguments.

Local Open Scope string_scope.

(* ================================================================== *)
(** ** Text: the string operations of the Python runtime the module uses *)

Module Text.

(** ['\n'] *)
Definition newline : string := String (ascii_of_nat 10) EmptyString.

(** [sep.join(parts)] *)
Definition join (sep : string) (parts : list string) : string :=
  String.concat sep parts.

(** ['%d' % n] for a natural number. *)
Definition dec (n : N) : string := NilEmpty.string_of_uint (N.to_uint n).

Fixpoint zeros (k : nat) : string :=
  match k with
  | O => ""
  | S k' => "0" ++ zeros k'
  end.

(** ['%0<width>d' % n]: left padding with zeros. *)
Definition zfill (width : nat) (n : N) : string :=
  let s := dec n in zeros (width - String.length s) ++ s.

(** Nearest integer of a non-negative rational, ties to even: the
    rounding of a correctly rounded ['%.<k>f']. *)
Definition round_half_even (q : Q) : Z :=
  let n := Qnum q in
  let d := Z.pos (Qden q) in
  let fl := (n / d)%Z in
  match (2 * (n mod d) ?= d)%Z with
  | Lt => fl
  | Gt => (fl + 1)%Z
  | Eq => if Z.even fl then fl else (fl + 1)%Z
  end.

End Text.

(* ================================================================== *)
(** ** Exceptions and results *)

Inductive exn : Type :=
| AssertionError (msg : string)
| Exception (msg : string)
| KeyError (key : string)
| ZeroDivisionError (msg : string)
| OverflowError (msg : string)
| ValueError (msg : string).

Inductive result (A : Type) : Type :=
| Ok (a : A)
| Raise (e : exn).

Arguments Ok {A} a.
Arguments Raise {A} e.

Definition bind {A B : Type} (r : result A) (k : A -> result B) : result B :=
  match r with
  | Ok a => k a
  | Raise e => Raise e
  end.

Notation "x <- r ;; k" := (bind r (fun x => k))
  (at level 61, r at next level, right associativity).

Definition raises {A : Type} (r : result A) : bool :=
  match r with
  | Ok _ => false
  | Raise _ => true
  end.

(* ================================================================== *)
(** ** Numbers: int and float *)

Module Num.

(** binary64 *)
Definition prec : Z := 53.
Definition emax : Z := 1024.

(** The finite values of the format: the two zeros, and the finite
    numbers in canonical form. *)
Definition is_double (f : spec_float) : bool :=
  match f with
  | S754_zero _ => true
  | S754_finite _ m e => bounded prec emax m e
  | S754_infinity _ => false
  | S754_nan => false
  end.

Record double : Type := mkDouble {
  bits : spec_float;
  bits_ok : is_double bits = true
}.

(** A number a bar is built from: an int, or a finite float. *)
Inductive t : Type :=
| Int (n : Z)
| Float (d : double).

(** [2 ** e] *)
Definition pow2 (e : Z) : Q :=
  match e with
  | Z0 => 1
  | Zpos p => Zpos (2 ^ p) # 1
  | Zneg p => 1 # (2 ^ p)
  end.

(** The real number a finite float stands for (0 for the others). *)
Definition SFvalue (f : spec_float) : Q :=
  match f with
  | S754_finite s m e =>
      ((if s then Zneg m # 1 else Zpos m # 1) * pow2 e)%Q
  | _ => 0
  end.

Definition value (x : t) : Q :=
  match x with
  | Int n => inject_Z n
  | Float d => SFvalue (bits d)
  end.

(** [a >= b], [a <= b], [a != b]: Python compares ints and finite
    floats by their exact values. *)
Definition ge (a b : t) : bool := Qle_bool (value b) (value a).
Definition le (a b : t) : bool := Qle_bool (value a) (value b).
Definition ne (a b : t) : bool := negb (Qeq_bool (value a) (value b)).

(** The numbers that arithmetic produces: any int, any float
    (infinities and NaN included). *)
Inductive py : Type :=
| PInt (n : Z)
| PFloat (f : spec_float).

Definition obj (x : t) : py :=
  match x with
  | Int n => PInt n
  | Float d => PFloat (bits d)
  end.

(** [float(x)]: a float is returned as it is; an int is rounded to the
    nearest float, and raises when that is beyond the largest one. *)
Definition to_float (x : py) : result spec_float :=
  match x with
  | PFloat f => Ok f
  | PInt n =>
      match binary_normalize prec emax n 0 false with
      | S754_infinity _ =>
          Raise (OverflowError "long int too large to convert to float")
      | f => Ok f
      end
  end.

(** [x * y] *)
Definition mul (x y : py) : result py :=
  match x, y with
  | PInt m, PInt n => Ok (PInt (m * n))
  | _, _ =>
      fx <- to_float x ;;
      fy <- to_float y ;;
      Ok (PFloat (SFmul prec emax fx fy))
  end.

Definition is_zero (f : spec_float) : bool :=
  match f with
  | S754_zero _ => true
  | _ => false
  end.

(** [x / y] for a float [y]: [x] is converted first, then a zero
    divisor raises. *)
Definition truediv (x : py) (y : spec_float) : result spec_float :=
  fx <- to_float x ;;
  if is_zero y then Raise (ZeroDivisionError "float division by zero")
  else Ok (SFdiv prec emax fx y).

(** The float nearest to [m * 2 ** e], for writing float literals
    (0.0 when that is beyond the largest float). *)
Definition float_lit (m e : Z) : t :=
  let f := binary_normalize prec emax m e false in
  match is_double f as ok return is_double f = ok -> t with
  | true => fun H => Float (mkDouble f H)
  | false => fun _ => Float (mkDouble (S754_zero false) eq_refl)
  end eq_refl.

End Num.

(* ================================================================== *)
(** ** Formatting of numbers with [%] *)

Module Format.

(** The text of ['%.2f'] for a float: the sign when the sign bit is
    set, then the exact value rounded to two decimals. *)
Definition fixed2 (f : spec_float) : string :=
  match f with
  | S754_nan => "nan"
  | S754_infinity s => if s then "-inf" else "inf"
  | S754_zero s => (if s then "-" else "") ++ "0.00"
  | S754_finite s m e =>
      let cents :=
        Text.round_half_even ((Zpos m # 1) * Num.pow2 e * 100)%Q in
      (if s then "-" else "")
        ++ Text.dec (Z.to_N (cents / 100)) ++ "."
        ++ Text.zfill 2 (Z.to_N (cents mod 100))
  end.

(** ['%.2f' % x]: the number is converted to a float first. *)
Definition fmt_2f (x : Num.t) : result string :=
  f <- Num.to_float (Num.obj x) ;;
  Ok (fixed2 f).

(** ['%i' % x]: the number is truncated towards zero. *)
Definition fmt_i (x : Num.t) : string :=
  let q := Num.value x in
  let z := Z.quot (Qnum q) (Z.pos (Qden q)) in
  (if (z <? 0)%Z then "-" else "") ++ Text.dec (Z.abs_N z).

End Format.
(* ================================================================== *)
(** ** datetime.datetime *)

Record datetime : Type := mkDatetime {
  year : N;
  month : N;
  day : N;
  hour : N;
  minute : N;
  second : N;
  microsecond : N
}.

Definition datetime_eqb (a b : datetime) : bool :=
  (year a =? year b)%N && (month a =? month b)%N && (day a =? day b)%N
  && (hour a =? hour b)%N && (minute a =? minute b)%N
  && (second a =? second b)%N && (microsecond a =? microsecond b)%N.

(** [a != b] on datetimes. *)
Definition datetime_ne (a b : datetime) : bool := negb (datetime_eqb a b).

(** [dt.strftime('%Y.%m.%d %H:%M')]: the strftime of a datetime refuses
    a year before 1900. *)
Definition strftime_Ymd_HM (dt : datetime) : result string :=
  if (year dt <? 1900)%N then
    Raise (ValueError
             ("year=" ++ Text.dec (year dt)
              ++ " is before 1900; the datetime strftime() methods require year >= 1900"))
  else
    Ok (Text.zfill 4 (year dt) ++ "." ++ Text.zfill 2 (month dt) ++ "."
        ++ Text.zfill 2 (day dt) ++ " " ++ Text.zfill 2 (hour dt) ++ ":"
        ++ Text.zfill 2 (minute dt)).

(** [str(dt)], which is [dt.isoformat(' ')]: the microseconds are
    printed only when they are not zero. *)
Definition datetime_str (dt : datetime) : string :=
  Text.zfill 4 (year dt) ++ "-" ++ Text.zfill 2 (month dt) ++ "-"
    ++ Text.zfill 2 (day dt) ++ " " ++ Text.zfill 2 (hour dt) ++ ":"
    ++ Text.zfill 2 (minute dt) ++ ":" ++ Text.zfill 2 (second dt)
    ++ (if (microsecond dt =? 0)%N then ""
        else "." ++ Text.zfill 6 (microsecond dt)).

(* ================================================================== *)
(** ** dict *)

Section Dict.

Context {K V : Type} (eqb : K -> K -> bool).

Definition dict : Type := list (K * V).

(** [len(d)] *)
Definition len (d : dict) : nat := List.length d.

(** [d.keys()], [d.values()], [d.iteritems()]: all three follow the
    iteration order of [d]. *)
Definition keys (d : dict) : list K := map fst d.
Definition values (d : dict) : list V := map snd d.
Definition iteritems (d : dict) : list (K * V) := d.

(** [d.get(k, None)] *)
Fixpoint get (d : dict) (k : K) : option V :=
  match d with
  | [] => None
  | (k', v) :: rest => if eqb k k' then Some v else get rest k
  end.

(** [k in d] *)
Definition contains (d : dict) (k : K) : bool :=
  existsb (eqb k) (keys d).

(** [d[k] = v]: an existing key keeps its place. *)
Fixpoint setitem (d : dict) (k : K) (v : V) : dict :=
  match d with
  | [] => [(k, v)]
  | (k', v') :: rest =>
      if eqb k k' then (k', v) :: rest else (k', v') :: setitem rest k v
  end.

(** [dict(pairs)] *)
Definition dict_of (pairs : list (K * V)) : dict :=
  fold_left (fun d kv => setitem d (fst kv) (snd kv)) pairs [].

(** Keys of a dict are pairwise distinct. *)
Definition wf_dict (d : dict) : Prop := NoDup (keys d).

End Dict.

(* ================================================================== *)
(** ** class Frequency, FrequencyToStr, StrToFrequency *)

Module Frequency.

(** The class attributes are Python ints (minutes) and one-letter
    strings. *)
Inductive token : Type :=
| Int (n : Z)
| Str (s : string).

Definition MINUTE : token := Int 1.
Definition FIVE : token := Int 5.
Definition TEN : token := Int 10.
Definition FIFTEEN : token := Int 15.
Definition THIRTY : token := Int 30.
Definition HOUR : token := Int 60.
Definition DAY : token := Str "d".
Definition WEEK : token := Str "w".
Definition MONTH : token := Str "m".

Definition token_eqb (a b : token) : bool :=
  match a, b with
  | Int m, Int n => (m =? n)%Z
  | Str s, Str t => String.eqb s t
  | _, _ => false
  end.

(** The nine attributes of the class, in the order of the source. *)
Definition tokens : list token :=
  [MINUTE; FIVE; TEN; FIFTEEN; THIRTY; HOUR; DAY; WEEK; MONTH].

End Frequency.

Definition FrequencyToStr : dict (K := Frequency.token) (V := string) :=
  [ (Frequency.MINUTE, "minute");
    (Frequency.FIVE, "five-minute");
    (Frequency.TEN, "ten-minute");
    (Frequency.FIFTEEN, "fifteen-minute");
    (Frequency.THIRTY, "thirty-minute");
    (Frequency.HOUR, "hour");
    (Frequency.DAY, "day");
    (Frequency.WEEK, "week");
    (Frequency.MONTH, "month") ].

(** [dict(zip(FrequencyToStr.values(), FrequencyToStr.keys()))] *)
Definition StrToFrequency : dict (K := string) (V := Frequency.token) :=
  dict_of String.eqb (combine (values FrequencyToStr) (keys FrequencyToStr)).

(** [FrequencyToStr[t]]: the name of a token. *)
Definition name_of (t : Frequency.token) : option string :=
  get Frequency.token_eqb FrequencyToStr t.

(** [StrToFrequency[name]]: the token of a name. *)
Definition token_of (name : string) : option Frequency.token :=
  get String.eqb StrToFrequency name.

(* ================================================================== *)
(** ** class Bar *)

Module Bar.

(** The instance attributes, in the order [__init__] assigns them.
    [None] in [__bars_until_session_close] is Python's [None]. *)
Record t : Type := mk {
  __date_time : datetime;
  __open : Num.t;
  __close : Num.t;
  __high : Num.t;
  __low : Num.t;
  __volume : Num.t;
  __adj_close : Num.t;
  __session_close : bool;
  __bars_until_session_close : option Z
}.

(** The Python values a bar may meet as the right operand of [==]. *)
Inductive object : Type :=
| PyNone
| PyBool (b : bool)
| PyInt (n : Z)
| PyFloat (f : spec_float)
| PyStr (s : string)
| PyBar (b : t).

(** [isinstance(other, Bar)] *)
Definition isinstance_Bar (other : object) : bool :=
  match other with
  | PyBar _ => true
  | _ => false
  end.

Definition get_date_time (self : t) : datetime := __date_time self.
Definition get_open (self : t) : Num.t := __open self.
Definition get_high (self : t) : Num.t := __high self.
Definition get_low (self : t) : Num.t := __low self.
Definition get_close (self : t) : Num.t := __close self.
Definition get_volume (self : t) : Num.t := __volume self.
Definition get_adj_close (self : t) : Num.t := __adj_close self.
Definition get_session_close (self : t) : bool := __session_close self.
Definition get_bars_until_session_close (self : t) : option Z :=
  __bars_until_session_close self.

(** [self.__adj_close * self.__open / float(self.__close)]: the
    product first, then [float(...)], then the quotient. *)
Definition get_adj_open (self : t) : result spec_float :=
  p <- Num.mul (Num.obj (__adj_close self)) (Num.obj (__open self)) ;;
  c <- Num.to_float (Num.obj (__close self)) ;;
  Num.truediv p c.

Definition get_adj_high (self : t) : result spec_float :=
  p <- Num.mul (Num.obj (__adj_close self)) (Num.obj (__high self)) ;;
  c <- Num.to_float (Num.obj (__close self)) ;;
  Num.truediv p c.

Definition get_adj_low (self : t) : result spec_float :=
  p <- Num.mul (Num.obj (__adj_close self)) (Num.obj (__low self)) ;;
  c <- Num.to_float (Num.obj (__close self)) ;;
  Num.truediv p c.

(** [self.__session_close = v] and [self.__bars_until_session_close = v]:
    an assignment changes one attribute of the object. *)
Definition assign_session_close (self : t) (v : bool) : t :=
  mk (__date_time self) (__open self) (__close self) (__high self)
     (__low self) (__volume self) (__adj_close self)
     v (__bars_until_session_close self).

Definition assign_bars_until_session_close (self : t) (v : option Z) : t :=
  mk (__date_time self) (__open self) (__close self) (__high self)
     (__low self) (__volume self) (__adj_close self)
     (__session_close self) v.

Definition set_session_close (self : t) (session_close : bool) : t :=
  let self := assign_session_close self session_close in
  if session_close then assign_bars_until_session_close self (Some 0%Z)
  else self.

Definition set_bars_until_session_close
    (self : t) (bars_until_session_close : option Z) : t :=
  assign_bars_until_session_close self bars_until_session_close.

(** The six conversions are made from left to right; the first that
    raises ends the rendering. *)
Definition __str__ (self : t) : result string :=
  dt <- strftime_Ymd_HM (get_date_time self) ;;
  o <- Format.fmt_2f (get_open self) ;;
  h <- Format.fmt_2f (get_high self) ;;
  l <- Format.fmt_2f (get_low self) ;;
  c <- Format.fmt_2f (get_close self) ;;
  Ok ("DT: " ++ dt ++ ", O: " ++ o ++ ", H: " ++ h ++ ", L: " ++ l
      ++ ", C: " ++ c ++ ", V: " ++ Format.fmt_i (get_volume self)).

(** [unicode(self.__str__())]: the rendering is ASCII, so the unicode
    string has the same characters. *)
Definition __unicode__ (self : t) : result string := __str__ self.

(** The local function of [__init__]: a failed [assert] appends one
    line to [errors].  The line is built inside the [except] clause, so
    an exception of [__str__] is not caught and leaves [__init__]. *)
Definition bar_assert (self : t) (errors : list string)
    (comparison : bool) (msg : string) : result (list string) :=
  if comparison then Ok errors
  else
    s <- __str__ self ;;
    Ok (List.app errors [Text.join " " [msg; "(" ++ s ++ ")"]]).

Definition __init__ (date_time : datetime)
    (open_ high low close volume adj_close : Num.t) : result t :=
  let self := mk date_time open_ close high low volume adj_close false None in
  let errors := [] in
  errors <- bar_assert self errors (Num.ge high open_) "(H)igh !>= (O)pen." ;;
  errors <- bar_assert self errors (Num.ge high low) "(H)igh !>= (L)ow." ;;
  errors <- bar_assert self errors (Num.ge high close) "(H)igh !>= (C)lose." ;;
  errors <- bar_assert self errors (Num.le low open_) "(L)ow !<= (O)open." ;;
  errors <- bar_assert self errors (Num.le low high) "(L)ow !<= (H)igh." ;;
  errors <- bar_assert self errors (Num.le low close) "(L)ow !<= (C)lose." ;;
  match errors with
  | [] => Ok self
  | _ :: _ => Raise (AssertionError (Text.join Text.newline errors))
  end.

Definition __eq__ (self : t) (other : object) : bool :=
  match other with
  | PyBar other =>
      if datetime_ne (get_date_time self) (get_date_time other) then false
      else if Num.ne (get_open self) (get_open other) then false
      else if Num.ne (get_high self) (get_high other) then false
      else if Num.ne (get_low self) (get_low other) then false
      else if Num.ne (get_close self) (get_close other) then false
      else if Num.ne (get_volume self) (get_volume other) then false
      else if Num.ne (get_adj_close self) (get_adj_close other) then false
      else true
  | _ => false
  end.

Definition __ne__ (self : t) (other : object) : bool :=
  negb (__eq__ self other).

End Bar.

(* ================================================================== *)
(** ** class Bars *)

Module Bars.

Record t : Type := mk {
  __bar_dict : dict (K := string) (V := Bar.t);
  __date_time : option datetime
}.

(** ['%s' % x] for a variable that may still hold [None]. *)
Definition str_or_None (x : option string) : string :=
  match x with
  | Some s => s
  | None => "None"
  end.

Definition not_in_sync (symbol : string) (current : datetime)
    (first_symbol : option string) (first_date_time : datetime) : string :=
  "Bar data times are not in sync. " ++ symbol ++ " " ++ datetime_str current
  ++ " != " ++ str_or_None first_symbol ++ " " ++ datetime_str first_date_time.

(** The [for] loop of [__init__]; its state is the pair of local
    variables [first_date_time], [first_symbol]. *)
Fixpoint check_sync (items : list (string * Bar.t))
    (first_date_time : option datetime) (first_symbol : option string)
    : result (option datetime * option string) :=
  match items with
  | [] => Ok (first_date_time, first_symbol)
  | (symbol, current_bar) :: rest =>
      match first_date_time with
      | None =>
          check_sync rest (Some (Bar.get_date_time current_bar)) (Some symbol)
      | Some first =>
          if datetime_ne (Bar.get_date_time current_bar) first then
            Raise (Exception
                     (not_in_sync symbol (Bar.get_date_time current_bar)
                                  first_symbol first))
          else check_sync rest first_date_time first_symbol
      end
  end.

Definition __init__ (bar_dict : dict (K := string) (V := Bar.t)) : result t :=
  if (len bar_dict =? 0)%nat then Raise (Exception "No bars supplied")
  else
    st <- check_sync (iteritems bar_dict) None None ;;
    Ok (mk bar_dict (fst st)).

Definition __getitem__ (self : t) (symbol : string) : result Bar.t :=
  match get String.eqb (__bar_dict self) symbol with
  | Some b => Ok b
  | None => Raise (KeyError symbol)
  end.

Definition __contains__ (self : t) (symbol : string) : bool :=
  contains String.eqb (__bar_dict self) symbol.

Definition get_symbols (self : t) : list string := keys (__bar_dict self).

Definition get_date_time (self : t) : option datetime := __date_time self.

Definition get_bar (self : t) (symbol : string) : option Bar.t :=
  get String.eqb (__bar_dict self) symbol.

End Bars.

(* ================================================================== *)
(** ** The ordering rules of a bar, as the specification words them *)

Module Rules.

(** The six rules, named after the prices they relate. *)
Inductive rule : Type :=
| H_ge_O
| H_ge_L
| H_ge_C
| L_le_O
| L_le_H
| L_le_C.

(** The order in which violations are reported. *)
Definition all : list rule := [H_ge_O; H_ge_L; H_ge_C; L_le_O; L_le_H; L_le_C].

(** What a rule demands of the four prices. *)
Definition holds (open_ high low close : Num.t) (r : rule) : Prop :=
  match r with
  | H_ge_O => (Num.value open_ <= Num.value high)%Q
  | H_ge_L => (Num.value low <= Num.value high)%Q
  | H_ge_C => (Num.value close <= Num.value high)%Q
  | L_le_O => (Num.value low <= Num.value open_)%Q
  | L_le_H => (Num.value low <= Num.value high)%Q
  | L_le_C => (Num.value low <= Num.value close)%Q
  end.

Definition holdsb (open_ high low close : Num.t) (r : rule) : bool :=
  match r with
  | H_ge_O => Qle_bool (Num.value open_) (Num.value high)
  | H_ge_L => Qle_bool (Num.value low) (Num.value high)
  | H_ge_C => Qle_bool (Num.value close) (Num.value high)
  | L_le_O => Qle_bool (Num.value low) (Num.value open_)
  | L_le_H => Qle_bool (Num.value low) (Num.value high)
  | L_le_C => Qle_bool (Num.value low) (Num.value close)
  end.

(** The text that reports a violated rule. *)
Definition label (r : rule) : string :=
  match r with
  | H_ge_O => "(H)igh !>= (O)pen."
  | H_ge_L => "(H)igh !>= (L)ow."
  | H_ge_C => "(H)igh !>= (C)lose."
  | L_le_O => "(L)ow !<= (O)open."
  | L_le_H => "(L)ow !<= (H)igh."
  | L_le_C => "(L)ow !<= (C)lose."
  end.

(** The violated rules, in reporting order. *)
Definition violated (open_ high low close : Num.t) : list rule :=
  filter (fun r => negb (holdsb open_ high low close r)) all.

(** One line of the report: the label, then the rendering of the bar
    between parentheses. *)
Definition line (rendering : string) (r : rule) : string :=
  label r ++ " (" ++ rendering ++ ")".

(** The whole report: one line per violated rule. *)
Definition report (rendering : string) (open_ high low close : Num.t) : string :=
  Text.join Text.newline (map (line rendering) (violated open_ high low close)).

End Rules.

(** The bar whose construction is attempted: what [self] holds when the
    rules are checked. *)
Definition attempted (date_time : datetime)
    (open_ high low close volume adj_close : Num.t) : Bar.t :=
  Bar.mk date_time open_ close high low volume adj_close false None.

(** Sample values used by the examples. *)
Module Sample.

Definition t0 : datetime := mkDatetime 2020 1 2 9 30 0 0.
Definition t1 : datetime := mkDatetime 2020 1 3 9 30 0 0.
Definition flat (date_time : datetime) (price : Num.t) : Bar.t :=
  Bar.mk date_time price price price price (Num.Int 100) price false None.

End Sample.

(** ** What a client can do to a bar once it is built *)

Module Life.

(** The two methods of [Bar] that assign to the object. *)
Inductive call : Type :=
| SetSessionClose (session_close : bool)
| SetBarsUntilSessionClose (bars_until_session_close : option Z).

Definition run (self : Bar.t) (c : call) : Bar.t :=
  match c with
  | SetSessionClose flag => Bar.set_session_close self flag
  | SetBarsUntilSessionClose n => Bar.set_bars_until_session_close self n
  end.

(** A sequence of calls, the first of the list first. *)
Definition run_all (self : Bar.t) (calls : list call) : Bar.t :=
  fold_left run calls self.

(** The mapping after a client has made, on the bar of each symbol,
    the calls that [plan] lists for it. *)
Definition annotate (plan : string -> list call)
    (d : dict (K := string) (V := Bar.t)) : dict (K := string) (V := Bar.t) :=
  map (fun kv => (fst kv, run_all (snd kv) (plan (fst kv)))) d.

End Life.

(** ** The adjusted prices: what the three getters can give *)




(* ================================================================== *)
(** * Properties *)

Unset Implicit Arguments.

(** ** Conversion of a non-zero int to a float *)

Section Rounding.

Local Open Scope Z_scope.










End Rounding.


(** ** Basic facts *)

Lemma datetime_eqb_eq (a b : datetime) : datetime_eqb a b = true <-> a = b.
Proof.
  split.
  - destruct a, b; unfold datetime_eqb; simpl; intro H.
    repeat (apply andb_true_iff in H; destruct H as [H ?]).
    repeat match goal with E : (_ =? _)%N = true |- _ =>
      apply N.eqb_eq in E end.
    congruence.
  - intros ->. unfold datetime_eqb. now rewrite !N.eqb_refl.
Qed.

Lemma datetime_ne_false (a b : datetime) : datetime_ne a b = false <-> a = b.
Proof.
  unfold datetime_ne. rewrite negb_false_iff. apply datetime_eqb_eq.
Qed.

Lemma datetime_ne_true (a b : datetime) : datetime_ne a b = true <-> a <> b.
Proof.
  unfold datetime_ne. rewrite negb_true_iff, <- not_true_iff_false.
  now rewrite datetime_eqb_eq.
Qed.

Lemma datetime_eq_dec (a b : datetime) : {a = b} + {a <> b}.
Proof.
  destruct (datetime_ne a b) eqn:E.
  - right. now apply datetime_ne_true.
  - left. now apply datetime_ne_false.
Qed.

Lemma ne_false (a b : Num.t) :
  Num.ne a b = false <-> (Num.value a == Num.value b)%Q.
Proof.
  unfold Num.ne. rewrite negb_false_iff. apply Qeq_bool_iff.
Qed.

Lemma holdsb_holds (o h l c : Num.t) (r : Rules.rule) :
  Rules.holdsb o h l c r = true <-> Rules.holds o h l c r.
Proof. destruct r; apply Qle_bool_iff. Qed.

Lemma violated_iff (o h l c : Num.t) (r : Rules.rule) :
  In r (Rules.violated o h l c) <-> ~ Rules.holds o h l c r.
Proof.
  unfold Rules.violated. rewrite filter_In, negb_true_iff.
  rewrite <- holdsb_holds, not_true_iff_false.
  split; [tauto | intro H; split; [destruct r; simpl; tauto | exact H]].
Qed.

Lemma violated_nil (o h l c : Num.t) :
  Rules.violated o h l c = [] <-> forall r, Rules.holds o h l c r.
Proof.
  split.
  - intros E r. apply holdsb_holds.
    destruct (Rules.holdsb o h l c r) eqn:B; [reflexivity | exfalso].
    assert (I : In r (Rules.violated o h l c)).
    { apply violated_iff. rewrite <- holdsb_holds, B. discriminate. }
    rewrite E in I. exact I.
  - intro A. destruct (Rules.violated o h l c) as [|r rs] eqn:E; [reflexivity|].
    exfalso. assert (I : In r (Rules.violated o h l c)) by (rewrite E; now left).
    apply violated_iff in I. apply I, A.
Qed.

(** [Bar.__init__] in one equation: it accepts when no rule is
    violated; otherwise it renders the attempted bar and raises the
    report of the violated rules, unless the rendering raises, and then
    that exception is the outcome. *)
Lemma init_report (dt : datetime) (o h l c v ac : Num.t) :
  Bar.__init__ dt o h l c v ac =
  match Rules.violated o h l c with
  | [] => Ok (attempted dt o h l c v ac)
  | _ :: _ =>
      s <- Bar.__str__ (attempted dt o h l c v ac) ;;
      Raise (AssertionError (Rules.report s o h l c))
  end.
Proof.
  unfold Bar.__init__, Bar.bar_assert, Rules.report, Rules.violated,
    Rules.line, Rules.all, Num.ge, Num.le, attempted.
  generalize (Bar.__str__ (Bar.mk dt o c h l v ac false None)) as r.
  intro r. cbn [filter Rules.holdsb].
  destruct r as [s|e];
    destruct (Qle_bool (Num.value o) (Num.value h)),
      (Qle_bool (Num.value l) (Num.value h)),
      (Qle_bool (Num.value c) (Num.value h)),
      (Qle_bool (Num.value l) (Num.value o)),
      (Qle_bool (Num.value l) (Num.value c)); reflexivity.
Qed.

(* ------------------------------------------------------------------ *)
(** ** Bar: construction *)

(** The rendering exists when the date is not before 1900 and the
    four prices have a float: every float has, and every int within
    the float range. *)
Lemma str_defined (dt : datetime) (o h l c v ac : Num.t) :
  (1900 <= year dt)%N ->
  raises (Num.to_float (Num.obj o)) = false ->
  raises (Num.to_float (Num.obj h)) = false ->
  raises (Num.to_float (Num.obj l)) = false ->
  raises (Num.to_float (Num.obj c)) = false ->
  exists rendering, Bar.__str__ (attempted dt o h l c v ac) = Ok rendering.
Proof.
  intros Y O H L C.
  unfold Bar.__str__, strftime_Ymd_HM, Format.fmt_2f, attempted,
    Bar.get_date_time, Bar.get_open, Bar.get_high, Bar.get_low,
    Bar.get_close, Bar.get_volume. cbn [Bar.__date_time Bar.__open
    Bar.__high Bar.__low Bar.__close Bar.__volume].
  apply N.ltb_ge in Y. rewrite Y.
  destruct (Num.to_float (Num.obj o)); [|discriminate].
  destruct (Num.to_float (Num.obj h)); [|discriminate].
  destruct (Num.to_float (Num.obj l)); [|discriminate].
  destruct (Num.to_float (Num.obj c)); [|discriminate].
  cbn [bind]. eauto.
Qed.




(** The same happens to a bar dated before 1900, which [strftime]
    refuses. *)
Example bar_init_before_1900 :
  Bar.__init__ (mkDatetime 1896 5 26 0 0 0 0) (Num.Int 10) (Num.Int 5)
               (Num.Int 1) (Num.Int 8) (Num.Int 100) (Num.Int 8)
  = Raise (ValueError
      "year=1896 is before 1900; the datetime strftime() methods require year >= 1900").
Proof. reflexivity. Qed.

(** C2. When the prices satisfy the six ordering rules, [Bar.__init__]
    returns a bar whose accessors give back the seven values supplied,
    whose [session_close] is [False] and whose
    [bars_until_session_close] is [None]. *)
Theorem bar_init_valid (dt : datetime) (o h l c v ac : Num.t) :
  (forall r, Rules.holds o h l c r) ->
  exists b,
    Bar.__init__ dt o h l c v ac = Ok b
    /\ Bar.get_date_time b = dt
    /\ Bar.get_open b = o
    /\ Bar.get_high b = h
    /\ Bar.get_low b = l
    /\ Bar.get_close b = c
    /\ Bar.get_volume b = v
    /\ Bar.get_adj_close b = ac
    /\ Bar.get_session_close b = false
    /\ Bar.get_bars_until_session_close b = None.
Proof.
  intro A. exists (attempted dt o h l c v ac).
  rewrite init_report. apply violated_nil in A. rewrite A.
  repeat split.
Qed.

(** Ints and floats together: open 10, high 12, low 9.5, close 11,
    adjusted close 5.5. *)
Lemma bar_init_valid_witness :
  exists b,
    Bar.__init__ Sample.t0 (Num.Int 10) (Num.Int 12) (Num.float_lit 19 (-1))
                 (Num.Int 11) (Num.Int 1000) (Num.float_lit 11 (-1)) = Ok b
    /\ Bar.get_date_time b = Sample.t0
    /\ Bar.get_open b = Num.Int 10
    /\ Bar.get_high b = Num.Int 12
    /\ Bar.get_low b = Num.float_lit 19 (-1)
    /\ Bar.get_close b = Num.Int 11
    /\ Bar.get_volume b = Num.Int 1000
    /\ Bar.get_adj_close b = Num.float_lit 11 (-1)
    /\ Bar.get_session_close b = false
    /\ Bar.get_bars_until_session_close b = None.
Proof.
  apply (bar_init_valid Sample.t0 (Num.Int 10) (Num.Int 12)
           (Num.float_lit 19 (-1)) (Num.Int 11) (Num.Int 1000)
           (Num.float_lit 11 (-1))).
  intros []; vm_compute; discriminate.
Defined.

(* ------------------------------------------------------------------ *)
(** ** Bar: adjusted prices *)

(** The only exception of a conversion or of a product is
    [OverflowError]. *)
Lemma to_float_raises (x : Num.py) (e : exn) :
  Num.to_float x = Raise e -> exists msg, e = OverflowError msg.
Proof.
  destruct x as [n|f]; simpl; [|discriminate].
  destruct (binary_normalize Num.prec Num.emax n 0 false);
    try discriminate.
  intros [= <-]. eauto.
Qed.











(* ------------------------------------------------------------------ *)
(** ** Bar: session attributes *)

(** The two setters leave the date and the prices as they are. *)
Lemma setters_keep_prices (b : Bar.t) (flag : bool) (n : option Z) :
  let b' := Bar.set_bars_until_session_close (Bar.set_session_close b flag) n in
  Bar.get_date_time b' = Bar.get_date_time b
  /\ Bar.get_open b' = Bar.get_open b
  /\ Bar.get_high b' = Bar.get_high b
  /\ Bar.get_low b' = Bar.get_low b
  /\ Bar.get_close b' = Bar.get_close b
  /\ Bar.get_volume b' = Bar.get_volume b
  /\ Bar.get_adj_close b' = Bar.get_adj_close b.
Proof. destruct b, flag; repeat split. Qed.

(** C5. [set_session_close(True)] sets [session_close] to [True] and
    the countdown to 0 whatever it was; [set_session_close(False)] sets
    [session_close] to [False] and keeps the countdown;
    [set_bars_until_session_close(n)] sets the countdown to [n] and
    keeps [session_close]. *)
Theorem session_setters (b : Bar.t) (n : option Z) :
  Bar.get_session_close (Bar.set_session_close b true) = true
  /\ Bar.get_bars_until_session_close (Bar.set_session_close b true) = Some 0%Z
  /\ Bar.get_session_close (Bar.set_session_close b false) = false
  /\ Bar.get_bars_until_session_close (Bar.set_session_close b false)
     = Bar.get_bars_until_session_close b
  /\ Bar.get_bars_until_session_close (Bar.set_bars_until_session_close b n) = n
  /\ Bar.get_session_close (Bar.set_bars_until_session_close b n)
     = Bar.get_session_close b.
Proof. destruct b; repeat split. Qed.

(* ------------------------------------------------------------------ *)
(** ** Bar: equality *)

Lemma eq_bar_iff (a b : Bar.t) :
  Bar.__eq__ a (Bar.PyBar b) = true <->
  Bar.get_date_time a = Bar.get_date_time b
  /\ (Num.value (Bar.get_open a) == Num.value (Bar.get_open b))%Q
  /\ (Num.value (Bar.get_high a) == Num.value (Bar.get_high b))%Q
  /\ (Num.value (Bar.get_low a) == Num.value (Bar.get_low b))%Q
  /\ (Num.value (Bar.get_close a) == Num.value (Bar.get_close b))%Q
  /\ (Num.value (Bar.get_volume a) == Num.value (Bar.get_volume b))%Q
  /\ (Num.value (Bar.get_adj_close a) == Num.value (Bar.get_adj_close b))%Q.
Proof.
  unfold Bar.__eq__.
  rewrite <- datetime_ne_false, <- !ne_false.
  destruct (datetime_ne _ _); [intuition discriminate|].
  repeat match goal with
  | |- context [if Num.ne ?x ?y then _ else _] =>
      destruct (Num.ne x y); [intuition discriminate|]
  end.
  intuition.
Qed.

(** C6. Two bars compare equal exactly when their date_time, open,
    high, low, close, volume and adj_close are equal (numbers by
    numeric equality); whatever the session setters did to either bar
    does not change the outcome. *)
Theorem bar_eq_fields (a b : Bar.t) :
  (Bar.__eq__ a (Bar.PyBar b) = true <->
     Bar.get_date_time a = Bar.get_date_time b
     /\ (Num.value (Bar.get_open a) == Num.value (Bar.get_open b))%Q
     /\ (Num.value (Bar.get_high a) == Num.value (Bar.get_high b))%Q
     /\ (Num.value (Bar.get_low a) == Num.value (Bar.get_low b))%Q
     /\ (Num.value (Bar.get_close a) == Num.value (Bar.get_close b))%Q
     /\ (Num.value (Bar.get_volume a) == Num.value (Bar.get_volume b))%Q
     /\ (Num.value (Bar.get_adj_close a) == Num.value (Bar.get_adj_close b))%Q)
  /\ (forall fa fb na nb,
        Bar.__eq__
          (Bar.set_bars_until_session_close (Bar.set_session_close a fa) na)
          (Bar.PyBar
             (Bar.set_bars_until_session_close (Bar.set_session_close b fb) nb))
        = Bar.__eq__ a (Bar.PyBar b)).
Proof.
  split; [apply eq_bar_iff|].
  intros fa fb na nb. destruct a, b, fa, fb; reflexivity.
Qed.

(** C10. A bar compared with a value that is not a bar gives [False],
    and [__ne__] is the negation of [__eq__] on every value. *)
Theorem bar_eq_other_values (b : Bar.t) (x : Bar.object) :
  (Bar.isinstance_Bar x = false -> Bar.__eq__ b x = false)
  /\ Bar.__ne__ b x = negb (Bar.__eq__ b x).
Proof.
  split; [|reflexivity].
  destruct x; simpl; intro H; [reflexivity .. | discriminate].
Qed.

Lemma bar_eq_other_values_witness :
  Bar.__eq__ (Sample.flat Sample.t0 (Num.Int 1)) (Bar.PyInt 1) = false
  /\ Bar.__ne__ (Sample.flat Sample.t0 (Num.Int 1)) (Bar.PyInt 1) = true.
Proof.
  destruct (bar_eq_other_values (Sample.flat Sample.t0 (Num.Int 1)) (Bar.PyInt 1))
    as [E N].
  split; [apply E; reflexivity | rewrite N, E; reflexivity].
Defined.

(** Two bars with the same date and prices, the one in ints and marked
    as a session close, the other in floats, are equal; a different
    open and low make them unequal. *)
Lemma bar_eq_fields_witness :
  Bar.__eq__ (Bar.set_session_close (Sample.flat Sample.t0 (Num.Int 5)) true)
             (Bar.PyBar (Sample.flat Sample.t0 (Num.float_lit 5 0))) = true
  /\ Bar.__eq__ (attempted Sample.t0 (Num.Int 4) (Num.Int 5) (Num.Int 4)
                   (Num.Int 5) (Num.Int 100) (Num.Int 5))
                (Bar.PyBar (Sample.flat Sample.t0 (Num.Int 5))) = false.
Proof.
  split.
  - apply (proj1 (bar_eq_fields _ _)). vm_compute. repeat split.
  - destruct (Bar.__eq__ (attempted Sample.t0 (Num.Int 4) (Num.Int 5)
                (Num.Int 4) (Num.Int 5) (Num.Int 100) (Num.Int 5))
                (Bar.PyBar (Sample.flat Sample.t0 (Num.Int 5)))) eqn:E;
      [|reflexivity].
    apply (proj1 (bar_eq_fields _ _)) in E.
    destruct E as (_ & O & _). vm_compute in O. discriminate.
Defined.

(* ------------------------------------------------------------------ *)
(** ** Bars: construction *)

Section CheckSync.

Variable first : datetime.
Variable first_symbol : option string.

Let agrees (kv : string * Bar.t) : Prop := Bar.get_date_time (snd kv) = first.

(** The loop runs to its end over bars that carry the recorded date. *)
Lemma check_sync_agree (items : list (string * Bar.t)) :
  Forall agrees items ->
  Bars.check_sync items (Some first) first_symbol
    = Ok (Some first, first_symbol).
Proof.
  induction 1 as [|[s b] rest A _ IH]; simpl; [reflexivity|].
  unfold agrees in A. simpl in A.
  now rewrite (proj2 (datetime_ne_false _ _) A).
Qed.

(** The loop stops at the first bar that carries another date. *)
Lemma check_sync_mismatch (pre post : list (string * Bar.t))
    (s : string) (b : Bar.t) :
  Forall agrees pre ->
  Bar.get_date_time b <> first ->
  Bars.check_sync ((pre ++ (s, b) :: post)%list) (Some first) first_symbol
    = Raise (Exception
               (Bars.not_in_sync s (Bar.get_date_time b) first_symbol first)).
Proof.
  intros A D. induction A as [|[s' b'] rest A _ IH]; simpl.
  - now rewrite (proj2 (datetime_ne_true _ _) D).
  - unfold agrees in A. simpl in A.
    now rewrite (proj2 (datetime_ne_false _ _) A).
Qed.

(** A list with a disagreeing bar splits at the first one. *)
Lemma first_mismatch (items : list (string * Bar.t)) :
  Exists (fun kv => ~ agrees kv) items ->
  exists pre s b post,
    items = (pre ++ (s, b) :: post)%list
    /\ Forall agrees pre
    /\ Bar.get_date_time b <> first.
Proof.
  induction items as [|[s b] rest IH]; intro E.
  - inversion E.
  - destruct (datetime_eq_dec (Bar.get_date_time b) first) as [Y|N].
    + destruct IH as (pre & s' & b' & post & -> & A & D).
      { inversion E as [? ? H|? ? H]; subst; [now elim H | exact H]. }
      exists ((s, b) :: pre), s', b', post. repeat split; auto.
    + exists [], s, b, rest. repeat split; auto.
Qed.

End CheckSync.

Lemma bars_init_dict (d : dict) (bars : Bars.t) :
  Bars.__init__ d = Ok bars -> Bars.__bar_dict bars = d.
Proof.
  unfold Bars.__init__. destruct (len d =? 0)%nat; [discriminate|].
  destruct (Bars.check_sync (iteritems d) None None); simpl; [|discriminate].
  now intros [= <-].
Qed.

(** C3. For a non-empty mapping: when every bar carries the timestamp
    [t], [Bars.__init__] returns a collection over that mapping whose
    [get_date_time] is [t]; when two bars carry different timestamps,
    [Bars.__init__] raises at the first entry (in iteration order)
    whose timestamp differs from that of the first entry, and the
    message names that entry's symbol and timestamp and the first
    entry's symbol and timestamp. *)
Theorem bars_init_sync (bar_dict : dict) :
  bar_dict <> [] ->
  (forall t,
     Forall (fun kv => Bar.get_date_time (snd kv) = t) bar_dict ->
     exists bars,
       Bars.__init__ bar_dict = Ok bars
       /\ Bars.get_date_time bars = Some t
       /\ Bars.__bar_dict bars = bar_dict)
  /\ ((exists s1 b1 s2 b2,
         In (s1, b1) bar_dict /\ In (s2, b2) bar_dict
         /\ Bar.get_date_time b1 <> Bar.get_date_time b2) ->
      exists s0 b0 pre s b post,
        bar_dict = ((s0, b0) :: pre ++ (s, b) :: post)%list
        /\ Forall (fun kv => Bar.get_date_time (snd kv) = Bar.get_date_time b0) pre
        /\ Bar.get_date_time b <> Bar.get_date_time b0
        /\ Bars.__init__ bar_dict =
             Raise (Exception
                      ("Bar data times are not in sync. "
                       ++ s ++ " " ++ datetime_str (Bar.get_date_time b)
                       ++ " != "
                       ++ s0 ++ " " ++ datetime_str (Bar.get_date_time b0)))).
Proof.
  destruct bar_dict as [|[s0 b0] rest]; [congruence|]. intros _. split.
  - intros t A. apply Forall_cons_iff in A. destruct A as [A0 Arest].
    simpl in A0. subst t.
    exists (Bars.mk ((s0, b0) :: rest) (Some (Bar.get_date_time b0))).
    unfold Bars.__init__, iteritems. simpl.
    rewrite check_sync_agree by exact Arest. repeat split.
  - intros (s1 & b1 & s2 & b2 & I1 & I2 & D).
    assert (E : Exists (fun kv => ~ Bar.get_date_time (snd kv)
                                    = Bar.get_date_time b0) rest).
    { destruct (datetime_eq_dec (Bar.get_date_time b1) (Bar.get_date_time b0))
        as [Y1|N1].
      - destruct I2 as [[= <- <-]|I2]; [now elim D|].
        apply Exists_exists. exists (s2, b2). split; [exact I2|]. simpl.
        congruence.
      - destruct I1 as [[= <- <-]|I1]; [now elim N1|].
        apply Exists_exists. exists (s1, b1). split; [exact I1|exact N1]. }
    apply first_mismatch in E.
    destruct E as (pre & s & b & post & -> & A & N).
    exists s0, b0, pre, s, b, post. repeat split; auto.
    unfold Bars.__init__, iteritems. simpl.
    rewrite check_sync_mismatch by assumption. reflexivity.
Qed.

(** Two symbols at one date give a collection at that date; a third
    symbol at another date makes the construction raise, naming it and
    the first symbol. *)
Lemma bars_init_sync_witness :
  (exists bars,
     Bars.__init__ [("AAPL", Sample.flat Sample.t0 (Num.Int 1));
                    ("MSFT", Sample.flat Sample.t0 (Num.Int 2))] = Ok bars
     /\ Bars.get_date_time bars = Some Sample.t0)
  /\ (exists msg,
       Bars.__init__ [("AAPL", Sample.flat Sample.t0 (Num.Int 1));
                      ("MSFT", Sample.flat Sample.t0 (Num.Int 2));
                      ("GOOG", Sample.flat Sample.t1 (Num.Int 3));
                      ("IBM", Sample.flat Sample.t0 (Num.Int 4))]
       = Raise (Exception msg)).
Proof.
  split.
  - destruct (proj1 (bars_init_sync
                       [("AAPL", Sample.flat Sample.t0 (Num.Int 1));
                        ("MSFT", Sample.flat Sample.t0 (Num.Int 2))]
                       ltac:(discriminate)) Sample.t0) as (bars & E & T & _).
    + repeat constructor.
    + exists bars. split; assumption.
  - destruct (proj2 (bars_init_sync
                       [("AAPL", Sample.flat Sample.t0 (Num.Int 1));
                        ("MSFT", Sample.flat Sample.t0 (Num.Int 2));
                        ("GOOG", Sample.flat Sample.t1 (Num.Int 3));
                        ("IBM", Sample.flat Sample.t0 (Num.Int 4))]
                       ltac:(discriminate)))
      as (s0 & b0 & pre & s & b & post & _ & _ & _ & E).
    + exists "AAPL", (Sample.flat Sample.t0 (Num.Int 1)), "GOOG", (Sample.flat Sample.t1 (Num.Int 3)).
      repeat split; simpl; auto. discriminate.
    + rewrite E. eexists. reflexivity.
Defined.

Example bars_init_desync_message :
  Bars.__init__ [("AAPL", Sample.flat Sample.t0 (Num.Int 1));
                 ("MSFT", Sample.flat Sample.t0 (Num.Int 2));
                 ("GOOG", Sample.flat Sample.t1 (Num.Int 3));
                 ("IBM", Sample.flat Sample.t0 (Num.Int 4))]
  = Raise (Exception
      "Bar data times are not in sync. GOOG 2020-01-03 09:30:00 != AAPL 2020-01-02 09:30:00").
Proof. reflexivity. Qed.

(** C7. A mapping with zero entries is refused: [Bars.__init__] raises
    [Exception("No bars supplied")] and returns no collection. *)
Theorem bars_init_empty (bar_dict : dict) :
  len bar_dict = 0%nat ->
  Bars.__init__ bar_dict = Raise (Exception "No bars supplied")
  /\ forall bars, Bars.__init__ bar_dict <> Ok bars.
Proof.
  intro L. unfold Bars.__init__. rewrite L. simpl.
  split; [reflexivity | discriminate].
Qed.

Lemma bars_init_empty_witness :
  Bars.__init__ [] = Raise (Exception "No bars supplied").
Proof. apply (proj1 (bars_init_empty [] eq_refl)). Defined.

(* ------------------------------------------------------------------ *)
(** ** Bars: lookup *)

Section Lookup.

Variable d : dict (K := string) (V := Bar.t).

Lemma get_absent (k : string) :
  ~ In k (keys d) -> get String.eqb d k = None.
Proof.
  induction d as [|[k' v] rest IH]; simpl; intro N; [reflexivity|].
  destruct (String.eqb_spec k k') as [->|_]; [tauto|].
  apply IH. tauto.
Qed.

Lemma get_present (k : string) (v : Bar.t) :
  wf_dict d -> In (k, v) d -> get String.eqb d k = Some v.
Proof.
  unfold wf_dict.
  induction d as [|[k' v'] rest IH]; simpl; intros W I; [contradiction|].
  apply NoDup_cons_iff in W. destruct W as [Fresh W].
  destruct I as [[= -> ->]|I].
  - now rewrite String.eqb_refl.
  - destruct (String.eqb_spec k k') as [->|_]; [|now apply IH].
    exfalso. apply Fresh. change k' with (fst (k', v)). now apply in_map.
Qed.

End Lookup.

(** C8. On a collection built by [Bars.__init__]: when the symbol is a
    key of the mapping, [bars[symbol]] and [get_bar(symbol)] both return
    the bar stored under it; when it is not, [bars[symbol]] raises
    [KeyError] and [get_bar(symbol)] returns [None]. *)
Theorem bars_lookup (bar_dict : dict) (bars : Bars.t) (symbol : string) :
  wf_dict bar_dict ->
  Bars.__init__ bar_dict = Ok bars ->
  (forall b, In (symbol, b) bar_dict ->
     Bars.__getitem__ bars symbol = Ok b
     /\ Bars.get_bar bars symbol = Some b)
  /\ (~ In symbol (keys bar_dict) ->
     Bars.__getitem__ bars symbol = Raise (KeyError symbol)
     /\ Bars.get_bar bars symbol = None).
Proof.
  intros W E. apply bars_init_dict in E.
  unfold Bars.__getitem__, Bars.get_bar. rewrite E. split.
  - intros b I. now rewrite (get_present bar_dict symbol b W I).
  - intro N. now rewrite (get_absent bar_dict symbol N).
Qed.

(** The collection of the specification's example: AAPL is found by
    both lookups, GOOG raises from the one and gives [None] from the
    other. *)
Lemma bars_lookup_witness :
  let barA := Sample.flat Sample.t0 (Num.Int 1) in
  let barB := Sample.flat Sample.t0 (Num.Int 2) in
  let bars := Bars.mk [("AAPL", barA); ("MSFT", barB)] (Some Sample.t0) in
  Bars.__init__ [("AAPL", barA); ("MSFT", barB)] = Ok bars
  /\ (Bars.__getitem__ bars "AAPL" = Ok barA
      /\ Bars.get_bar bars "AAPL" = Some barA)
  /\ (Bars.__getitem__ bars "GOOG" = Raise (KeyError "GOOG")
      /\ Bars.get_bar bars "GOOG" = None).
Proof.
  intros barA barB bars.
  assert (W : wf_dict [("AAPL", barA); ("MSFT", barB)]).
  { unfold wf_dict. simpl. repeat constructor; simpl; intuition discriminate. }
  assert (E : Bars.__init__ [("AAPL", barA); ("MSFT", barB)] = Ok bars)
    by reflexivity.
  split; [exact E|]. split.
  - apply (proj1 (bars_lookup _ bars "AAPL" W E)). now left.
  - apply (proj2 (bars_lookup _ bars "GOOG" W E)).
    simpl. intuition discriminate.
Defined.

(* ------------------------------------------------------------------ *)
(** ** Frequency *)

Lemma token_eqb_eq (a b : Frequency.token) :
  Frequency.token_eqb a b = true <-> a = b.
Proof.
  destruct a, b; simpl; try (split; discriminate).
  - rewrite Z.eqb_eq. split; congruence.
  - rewrite String.eqb_eq. split; congruence.
Qed.

(** C9. Each of the nine tokens has a name in [FrequencyToStr], and
    [StrToFrequency] maps that name back to the token; a name is the
    name of a token exactly when the token is the token of the name. *)
Theorem frequency_round_trip :
  Forall (fun t => exists name, name_of t = Some name /\ token_of name = Some t)
         Frequency.tokens
  /\ List.length Frequency.tokens = 9%nat
  /\ NoDup Frequency.tokens
  /\ forall t name, name_of t = Some name <-> token_of name = Some t.
Proof.
  split; [|split; [|split]].
  - repeat constructor; eexists; split; reflexivity.
  - reflexivity.
  - repeat constructor; simpl; intuition discriminate.
  - intros t name. split.
    + unfold name_of, FrequencyToStr. simpl.
      repeat match goal with
      | |- context [Frequency.token_eqb t ?k] =>
          destruct (Frequency.token_eqb t k) eqn:E;
            [apply token_eqb_eq in E; subst t; intros [= <-]; reflexivity
            | clear E]
      end.
      discriminate.
    + unfold token_of. cbv [StrToFrequency]. simpl.
      repeat match goal with
      | |- context [String.eqb name ?k] =>
          destruct (String.eqb_spec name k) as [->|_];
            [intros [= <-]; reflexivity|]
      end.
      discriminate.
Qed.

(* ================================================================== *)
(** * Further properties of the code *)

(* ------------------------------------------------------------------ *)
(** ** Bar: what construction guarantees, and for how long *)

(** A bar that [Bar.__init__] returned is the attempted bar, and its
    prices satisfy every rule. *)
Lemma init_ok_inv (dt : datetime) (o h l c v ac : Num.t) (b : Bar.t) :
  Bar.__init__ dt o h l c v ac = Ok b ->
  b = attempted dt o h l c v ac /\ forall r, Rules.holds o h l c r.
Proof.
  rewrite init_report.
  destruct (Rules.violated o h l c) eqn:E.
  - intros [= <-]. split; [reflexivity | now apply violated_nil].
  - destruct (Bar.__str__ (attempted dt o h l c v ac)); discriminate.
Qed.

(** One call of a session method keeps the date and the prices. *)
Lemma run_keeps_prices (b : Bar.t) (c : Life.call) :
  Bar.__date_time (Life.run b c) = Bar.__date_time b
  /\ Bar.__open (Life.run b c) = Bar.__open b
  /\ Bar.__high (Life.run b c) = Bar.__high b
  /\ Bar.__low (Life.run b c) = Bar.__low b
  /\ Bar.__close (Life.run b c) = Bar.__close b
  /\ Bar.__volume (Life.run b c) = Bar.__volume b
  /\ Bar.__adj_close (Life.run b c) = Bar.__adj_close b.
Proof. destruct b, c as [[]|n]; repeat split. Qed.

Lemma run_all_keeps_prices (calls : list Life.call) (b : Bar.t) :
  Bar.__date_time (Life.run_all b calls) = Bar.__date_time b
  /\ Bar.__open (Life.run_all b calls) = Bar.__open b
  /\ Bar.__high (Life.run_all b calls) = Bar.__high b
  /\ Bar.__low (Life.run_all b calls) = Bar.__low b
  /\ Bar.__close (Life.run_all b calls) = Bar.__close b
  /\ Bar.__volume (Life.run_all b calls) = Bar.__volume b
  /\ Bar.__adj_close (Life.run_all b calls) = Bar.__adj_close b.
Proof.
  revert b. induction calls as [|c calls IH]; intro b; [repeat split|].
  unfold Life.run_all in *. simpl.
  destruct (IH (Life.run b c)) as (E1 & E2 & E3 & E4 & E5 & E6 & E7).
  destruct (run_keeps_prices b c) as (F1 & F2 & F3 & F4 & F5 & F6 & F7).
  repeat split; congruence.
Qed.

(** X1. A bar that [Bar.__init__] returned keeps, through any sequence
    of calls of [set_session_close] and [set_bars_until_session_close],
    the date and the six numbers it was built from, and therefore the
    ordering low <= open, close <= high; it stays equal ([==]) to the
    bar as built, and its rendering and adjusted prices do not change. *)
Theorem bar_prices_immutable
    (dt : datetime) (o h l c v ac : Num.t) (b0 : Bar.t) (calls : list Life.call) :
  Bar.__init__ dt o h l c v ac = Ok b0 ->
  let b := Life.run_all b0 calls in
  (Bar.get_date_time b = dt /\ Bar.get_open b = o /\ Bar.get_high b = h
   /\ Bar.get_low b = l /\ Bar.get_close b = c /\ Bar.get_volume b = v
   /\ Bar.get_adj_close b = ac)
  /\ ((Num.value (Bar.get_low b) <= Num.value (Bar.get_open b))%Q
      /\ (Num.value (Bar.get_open b) <= Num.value (Bar.get_high b))%Q
      /\ (Num.value (Bar.get_low b) <= Num.value (Bar.get_close b))%Q
      /\ (Num.value (Bar.get_close b) <= Num.value (Bar.get_high b))%Q
      /\ (Num.value (Bar.get_low b) <= Num.value (Bar.get_high b))%Q)
  /\ Bar.__eq__ b (Bar.PyBar b0) = true
  /\ Bar.__str__ b = Bar.__str__ b0
  /\ Bar.__unicode__ b = Bar.__unicode__ b0
  /\ Bar.get_adj_open b = Bar.get_adj_open b0
  /\ Bar.get_adj_high b = Bar.get_adj_high b0
  /\ Bar.get_adj_low b = Bar.get_adj_low b0.
Proof.
  intros I b. apply init_ok_inv in I. destruct I as [-> A].
  destruct (run_all_keeps_prices calls (attempted dt o h l c v ac))
    as (E1 & E2 & E3 & E4 & E5 & E6 & E7).
  fold b in E1, E2, E3, E4, E5, E6, E7. simpl in E1, E2, E3, E4, E5, E6, E7.
  assert (G : Bar.get_date_time b = dt /\ Bar.get_open b = o
              /\ Bar.get_high b = h /\ Bar.get_low b = l
              /\ Bar.get_close b = c /\ Bar.get_volume b = v
              /\ Bar.get_adj_close b = ac) by (repeat split; assumption).
  split; [exact G|].
  destruct G as (G1 & G2 & G3 & G4 & G5 & G6 & G7).
  split.
  { rewrite G2, G3, G4, G5.
    pose proof (A Rules.H_ge_O). pose proof (A Rules.H_ge_L).
    pose proof (A Rules.H_ge_C). pose proof (A Rules.L_le_O).
    pose proof (A Rules.L_le_C). simpl in *. repeat split; assumption. }
  split.
  { apply eq_bar_iff. rewrite G1, G2, G3, G4, G5, G6, G7. simpl.
    repeat split; reflexivity. }
  unfold Bar.__unicode__, Bar.__str__, Bar.get_adj_open, Bar.get_adj_high,
    Bar.get_adj_low.
  unfold Bar.get_date_time, Bar.get_open, Bar.get_high, Bar.get_low,
    Bar.get_close, Bar.get_volume, Bar.get_adj_close in *.
  rewrite E1, E2, E3, E4, E5, E6, E7. simpl. repeat split.
Qed.

(** A bar marked as the last of its session, then given a countdown,
    then unmarked: the prices are those it was built from. *)
Lemma bar_prices_immutable_witness :
  let b := Life.run_all (attempted Sample.t0 (Num.Int 10) (Num.Int 12) (Num.Int 9) (Num.Int 11)
               (Num.Int 1000) (Num.float_lit 11 (-1)))
             [Life.SetSessionClose true;
              Life.SetBarsUntilSessionClose (Some 3%Z);
              Life.SetSessionClose false] in
  Bar.get_open b = Num.Int 10 /\ Bar.get_high b = Num.Int 12
  /\ Bar.get_low b = Num.Int 9 /\ Bar.get_close b = Num.Int 11
  /\ Bar.__eq__ b (Bar.PyBar (attempted Sample.t0 (Num.Int 10) (Num.Int 12) (Num.Int 9) (Num.Int 11)
               (Num.Int 1000) (Num.float_lit 11 (-1)))) = true.
Proof.
  intro b.
  destruct (bar_prices_immutable Sample.t0 (Num.Int 10) (Num.Int 12) (Num.Int 9)
              (Num.Int 11) (Num.Int 1000) (Num.float_lit 11 (-1))
              (attempted Sample.t0 (Num.Int 10) (Num.Int 12) (Num.Int 9) (Num.Int 11)
               (Num.Int 1000) (Num.float_lit 11 (-1)))
              [Life.SetSessionClose true;
               Life.SetBarsUntilSessionClose (Some 3%Z);
               Life.SetSessionClose false] eq_refl)
    as ((_ & O & H & L & C & _) & _ & E & _).
  repeat split; assumption.
Defined.

(* ------------------------------------------------------------------ *)
(** ** Bar: equality as a relation *)

(** X2. [==] between bars is reflexive, symmetric and transitive, and
    [!=] never holds between a bar and itself. *)
Theorem bar_eq_equivalence (a b c : Bar.t) :
  Bar.__eq__ a (Bar.PyBar a) = true
  /\ Bar.__ne__ a (Bar.PyBar a) = false
  /\ Bar.__eq__ a (Bar.PyBar b) = Bar.__eq__ b (Bar.PyBar a)
  /\ (Bar.__eq__ a (Bar.PyBar b) = true ->
      Bar.__eq__ b (Bar.PyBar c) = true ->
      Bar.__eq__ a (Bar.PyBar c) = true).
Proof.
  assert (R : forall x, Bar.__eq__ x (Bar.PyBar x) = true).
  { intro x. apply eq_bar_iff. repeat split; reflexivity. }
  assert (S : forall x y, Bar.__eq__ x (Bar.PyBar y) = true ->
                          Bar.__eq__ y (Bar.PyBar x) = true).
  { intros x y E. apply eq_bar_iff in E. apply eq_bar_iff.
    destruct E as (E1 & E2 & E3 & E4 & E5 & E6 & E7).
    repeat split; symmetry; assumption. }
  split; [apply R|]. split; [unfold Bar.__ne__; now rewrite R|]. split.
  - destruct (Bar.__eq__ a (Bar.PyBar b)) eqn:E1,
             (Bar.__eq__ b (Bar.PyBar a)) eqn:E2; try reflexivity.
    + apply S in E1. congruence.
    + apply S in E2. congruence.
  - intros E F. apply eq_bar_iff in E, F. apply eq_bar_iff.
    destruct E as (E1 & E2 & E3 & E4 & E5 & E6 & E7).
    destruct F as (F1 & F2 & F3 & F4 & F5 & F6 & F7).
    repeat split; etransitivity; eassumption.
Qed.

(** The same prices as ints, as floats, and as ints again on a bar with
    its session attributes set: each bar equals the next, so the first
    equals the last. *)
Lemma bar_eq_equivalence_witness :
  Bar.__eq__ (Sample.flat Sample.t0 (Num.Int 2))
             (Bar.PyBar (Bar.set_session_close
                           (Sample.flat Sample.t0 (Num.Int 2)) true))
  = true.
Proof.
  refine (proj2 (proj2 (proj2
            (bar_eq_equivalence (Sample.flat Sample.t0 (Num.Int 2))
               (Sample.flat Sample.t0 (Num.float_lit 2 0))
               (Bar.set_session_close
                  (Sample.flat Sample.t0 (Num.Int 2)) true))))
            _ _); reflexivity.
Defined.

(* ------------------------------------------------------------------ *)
(** ** Bar: how the two session methods compose *)

(** X4. The two session methods are not independent of their order.
    Marking the session close discards a countdown set before it, while
    a countdown set after it stands although the bar stays marked; and
    unmarking does not bring back the countdown that marking replaced.
    Each method repeated has the effect of its last call, and
    unmarking commutes with setting the countdown. *)
Theorem session_setters_compose (b : Bar.t) (n m : option Z) (flag : bool) :
  Bar.set_session_close (Bar.set_bars_until_session_close b n) true
    = Bar.set_session_close b true
  /\ Bar.get_bars_until_session_close
       (Bar.set_bars_until_session_close (Bar.set_session_close b true) n) = n
  /\ Bar.get_session_close
       (Bar.set_bars_until_session_close (Bar.set_session_close b true) n) = true
  /\ Bar.get_bars_until_session_close
       (Bar.set_session_close (Bar.set_session_close b true) false) = Some 0%Z
  /\ Bar.set_bars_until_session_close (Bar.set_bars_until_session_close b n) m
     = Bar.set_bars_until_session_close b m
  /\ Bar.set_session_close (Bar.set_session_close b flag) flag
     = Bar.set_session_close b flag
  /\ Bar.set_session_close (Bar.set_bars_until_session_close b n) false
     = Bar.set_bars_until_session_close (Bar.set_session_close b false) n.
Proof. destruct b, flag; repeat split. Qed.

(* ------------------------------------------------------------------ *)
(** ** Bar: what a failure report can look like *)

Lemma violated_is_filter (o h l c : Num.t) :
  Rules.violated o h l c =
  ((if Qle_bool (Num.value o) (Num.value h) then [] else [Rules.H_ge_O])
   ++ (if Qle_bool (Num.value l) (Num.value h) then [] else [Rules.H_ge_L])
   ++ (if Qle_bool (Num.value c) (Num.value h) then [] else [Rules.H_ge_C])
   ++ (if Qle_bool (Num.value l) (Num.value o) then [] else [Rules.L_le_O])
   ++ (if Qle_bool (Num.value l) (Num.value h) then [] else [Rules.L_le_H])
   ++ (if Qle_bool (Num.value l) (Num.value c) then [] else [Rules.L_le_C]))%list.
Proof.
  unfold Rules.violated, Rules.all. cbn [filter Rules.holdsb].
  destruct (Qle_bool (Num.value o) (Num.value h)),
    (Qle_bool (Num.value l) (Num.value h)),
    (Qle_bool (Num.value c) (Num.value h)),
    (Qle_bool (Num.value l) (Num.value o)),
    (Qle_bool (Num.value l) (Num.value c)); reflexivity.
Qed.

Lemma Qle_bool_false (x y : Q) : Qle_bool x y = false -> (y < x)%Q.
Proof.
  intro E. apply Qnot_le_lt. intro L. apply Qle_bool_iff in L. congruence.
Qed.

(** X6. The report of a refused bar that can be rendered is redundant
    in a fixed way: the lines for H>=L and L<=H come together or not at
    all, and when they come, a line about the open (H>=O or L<=O) and a
    line about the close (H>=C or L<=C) come with them; so a report has
    one, two, four, five or six lines, never three. *)
Theorem bar_report_redundant
    (dt : datetime) (o h l c v ac : Num.t) (rendering : string) :
  (exists r, ~ Rules.holds o h l c r) ->
  Bar.__str__ (attempted dt o h l c v ac) = Ok rendering ->
  exists reported,
    Bar.__init__ dt o h l c v ac =
      Raise (AssertionError
               (Text.join Text.newline
                  (map (fun r => Rules.label r ++ " (" ++ rendering ++ ")")
                       reported)))
    /\ (In Rules.H_ge_L reported <-> In Rules.L_le_H reported)
    /\ (In Rules.H_ge_L reported ->
        (In Rules.H_ge_O reported \/ In Rules.L_le_O reported)
        /\ (In Rules.H_ge_C reported \/ In Rules.L_le_C reported))
    /\ List.length reported <> 0%nat
    /\ List.length reported <> 3%nat.
Proof.
  intros [r0 V] S. exists (Rules.violated o h l c).
  split; [|split; [|split; [|split]]].
  - rewrite init_report, S. unfold Rules.report, Rules.line.
    destruct (Rules.violated o h l c) eqn:E; [|reflexivity].
    exfalso. apply V. now apply violated_nil.
  - rewrite !violated_iff. simpl. tauto.
  - rewrite !violated_iff. simpl. intro N.
    split.
    + destruct (Qlt_le_dec (Num.value h) (Num.value o));
        [left; lra | right; lra].
    + destruct (Qlt_le_dec (Num.value h) (Num.value c));
        [left; lra | right; lra].
  - intro Z. apply length_zero_iff_nil in Z. apply V.
    now apply violated_nil.
  - rewrite violated_is_filter.
    destruct (Qle_bool (Num.value o) (Num.value h)) eqn:E1,
      (Qle_bool (Num.value l) (Num.value h)) eqn:E2,
      (Qle_bool (Num.value c) (Num.value h)) eqn:E3,
      (Qle_bool (Num.value l) (Num.value o)) eqn:E4,
      (Qle_bool (Num.value l) (Num.value c)) eqn:E5;
      simpl; try discriminate; exfalso;
      repeat match goal with
      | E : Qle_bool _ _ = true |- _ => apply Qle_bool_iff in E
      | E : Qle_bool _ _ = false |- _ => apply Qle_bool_false in E
      end; lra.
Qed.

(** A bar with high below low, open and close below both: four rules
    are broken, and the report has the two lines about high and low
    among its four. *)
Lemma bar_report_redundant_witness :
  exists reported,
    Bar.__init__ Sample.t0 (Num.Int 3) (Num.Int 4) (Num.Int 6) (Num.Int 3)
                 (Num.Int 100) (Num.Int 3) =
      Raise (AssertionError
               (Text.join Text.newline
                  (map (fun r => Rules.label r
                          ++ " (DT: 2020.01.02 09:30, O: 3.00, H: 4.00, L: 6.00, C: 3.00, V: 100)")
                       reported)))
    /\ (In Rules.H_ge_L reported <-> In Rules.L_le_H reported)
    /\ (In Rules.H_ge_L reported ->
        (In Rules.H_ge_O reported \/ In Rules.L_le_O reported)
        /\ (In Rules.H_ge_C reported \/ In Rules.L_le_C reported))
    /\ List.length reported <> 0%nat
    /\ List.length reported <> 3%nat.
Proof.
  apply (bar_report_redundant Sample.t0 (Num.Int 3) (Num.Int 4) (Num.Int 6)
           (Num.Int 3) (Num.Int 100) (Num.Int 3)
           "DT: 2020.01.02 09:30, O: 3.00, H: 4.00, L: 6.00, C: 3.00, V: 100").
  - exists Rules.H_ge_L. vm_compute. intro H. apply H. reflexivity.
  - reflexivity.
Defined.

Example bar_report_high_below_low :
  Rules.violated (Num.Int 3) (Num.Int 4) (Num.Int 6) (Num.Int 3)
  = [Rules.H_ge_L; Rules.L_le_O; Rules.L_le_H; Rules.L_le_C].
Proof. reflexivity. Qed.

(* ------------------------------------------------------------------ *)
(** ** Bars: the three ways to ask for a symbol *)

Section Membership.

Variable d : dict (K := string) (V := Bar.t).

Lemma get_Some_In (k : string) (v : Bar.t) :
  get String.eqb d k = Some v -> In (k, v) d.
Proof.
  induction d as [|[k' v'] rest IH]; simpl; [discriminate|].
  destruct (String.eqb_spec k k') as [->|_].
  - intros [= ->]. now left.
  - intro G. right. now apply IH.
Qed.

Lemma contains_In (k : string) :
  contains String.eqb d k = true <-> In k (keys d).
Proof.
  unfold contains. rewrite existsb_exists. split.
  - intros (k' & I & E). apply String.eqb_eq in E. now subst.
  - intro I. exists k. split; [exact I | apply String.eqb_refl].
Qed.

Lemma contains_get (k : string) :
  contains String.eqb d k = true <-> exists v, get String.eqb d k = Some v.
Proof.
  rewrite contains_In. split.
  - intro I. destruct (get String.eqb d k) as [v|] eqn:G; [now exists v|].
    exfalso. revert I G. clear.
    induction d as [|[k' v'] rest IH]; simpl; [tauto|].
    destruct (String.eqb_spec k k') as [->|N]; [discriminate|].
    intros [E|I] G; [congruence | now apply IH].
  - intros [v G]. apply get_Some_In in G.
    change k with (fst (k, v)). now apply in_map.
Qed.

End Membership.

(** X7. On any collection the membership test, the list of symbols and
    the two lookups agree: [symbol in bars] is true exactly when the
    symbol is listed by [get_symbols], when [bars[symbol]] returns a
    bar and when [get_bar(symbol)] returns one, and both lookups then
    return the same bar; it is false exactly when [bars[symbol]] raises
    [KeyError] and when [get_bar(symbol)] returns [None]. *)
Theorem bars_membership (bars : Bars.t) (symbol : string) :
  (Bars.__contains__ bars symbol = true <-> In symbol (Bars.get_symbols bars))
  /\ (Bars.__contains__ bars symbol = true <->
      exists b, Bars.__getitem__ bars symbol = Ok b)
  /\ (Bars.__contains__ bars symbol = true <->
      exists b, Bars.get_bar bars symbol = Some b)
  /\ (Bars.__contains__ bars symbol = false <->
      Bars.__getitem__ bars symbol = Raise (KeyError symbol))
  /\ (Bars.__contains__ bars symbol = false <-> Bars.get_bar bars symbol = None)
  /\ (forall b, Bars.__getitem__ bars symbol = Ok b <->
                Bars.get_bar bars symbol = Some b).
Proof.
  unfold Bars.__contains__, Bars.get_symbols, Bars.__getitem__, Bars.get_bar.
  pose proof (contains_get (Bars.__bar_dict bars) symbol) as CG.
  split; [apply contains_In|].
  destruct (get String.eqb (Bars.__bar_dict bars) symbol) as [b|] eqn:G.
  - assert (T : contains String.eqb (Bars.__bar_dict bars) symbol = true)
      by (apply CG; now exists b).
    rewrite T. repeat split; try discriminate; try congruence; eauto.
  - assert (F : contains String.eqb (Bars.__bar_dict bars) symbol = false).
    { apply not_true_iff_false. intro T. apply CG in T.
      destruct T as [v T]. discriminate. }
    rewrite F. repeat split; try discriminate; try congruence;
      intros [v E]; discriminate.
Qed.

(* ------------------------------------------------------------------ *)
(** ** Bars: what construction guarantees *)

(** The loop can only run to its end over bars that carry the recorded
    date, and it then leaves its two variables as they were. *)
Lemma check_sync_ok_inv (items : list (string * Bar.t)) (first : datetime)
    (first_symbol : option string) (st : option datetime * option string) :
  Bars.check_sync items (Some first) first_symbol = Ok st ->
  st = (Some first, first_symbol)
  /\ Forall (fun kv => Bar.get_date_time (snd kv) = first) items.
Proof.
  induction items as [|[s b] rest IH]; simpl.
  - intros [= <-]. split; [reflexivity | constructor].
  - destruct (datetime_ne (Bar.get_date_time b) first) eqn:E; [discriminate|].
    intro C. destruct (IH C) as [-> A]. split; [reflexivity|].
    constructor; [now apply datetime_ne_false | exact A].
Qed.

Lemma bars_init_ok_inv (d : dict) (bars : Bars.t) :
  Bars.__init__ d = Ok bars ->
  exists s0 b0 rest,
    d = (s0, b0) :: rest
    /\ Forall (fun kv => Bar.get_date_time (snd kv) = Bar.get_date_time b0) rest
    /\ bars = Bars.mk d (Some (Bar.get_date_time b0)).
Proof.
  destruct d as [|[s0 b0] rest]; [discriminate|].
  unfold Bars.__init__, iteritems. simpl.
  destruct (Bars.check_sync rest (Some (Bar.get_date_time b0)) (Some s0))
    as [st|e] eqn:C; simpl; [|discriminate].
  apply check_sync_ok_inv in C. destruct C as [-> A]. intros [= <-].
  exists s0, b0, rest. repeat split. exact A.
Qed.

(** Construction succeeds exactly on a non-empty mapping whose bars
    all carry one date. *)
Lemma bars_init_ok_iff (d : dict) :
  raises (Bars.__init__ d) = false <->
  d <> []
  /\ forall kv kv', In kv d -> In kv' d ->
       Bar.get_date_time (snd kv) = Bar.get_date_time (snd kv').
Proof.
  split.
  - destruct (Bars.__init__ d) as [bars|e] eqn:I; [intros _ | discriminate].
    apply bars_init_ok_inv in I.
    destruct I as (s0 & b0 & rest & -> & A & _). split; [discriminate|].
    assert (H : forall kv, In kv ((s0, b0) :: rest) ->
                  Bar.get_date_time (snd kv) = Bar.get_date_time b0).
    { intros kv [<-|I]; [reflexivity|].
      rewrite Forall_forall in A. now apply A. }
    intros kv kv' I I'. now rewrite (H kv I), (H kv' I').
  - intros [N S]. destruct d as [|[s0 b0] rest]; [congruence|].
    unfold Bars.__init__, iteritems. simpl.
    rewrite check_sync_agree; [reflexivity|].
    apply Forall_forall. intros kv I.
    apply (S kv (s0, b0)); [now right | now left].
Qed.

(** X8. A collection that [Bars.__init__] returned has a date, never
    [None], and every bar that either lookup returns from it carries
    that date; its symbols are the keys of the mapping it was built
    from, and there is at least one. *)
Theorem bars_shared_timestamp (bar_dict : dict) (bars : Bars.t) :
  Bars.__init__ bar_dict = Ok bars ->
  exists t,
    Bars.get_date_time bars = Some t
    /\ (forall symbol b, Bars.get_bar bars symbol = Some b ->
          Bar.get_date_time b = t)
    /\ (forall symbol b, Bars.__getitem__ bars symbol = Ok b ->
          Bar.get_date_time b = t)
    /\ Bars.get_symbols bars = keys bar_dict
    /\ Bars.get_symbols bars <> [].
Proof.
  intro I. apply bars_init_ok_inv in I.
  destruct I as (s0 & b0 & rest & -> & A & ->).
  exists (Bar.get_date_time b0).
  assert (G : forall symbol b,
            get String.eqb ((s0, b0) :: rest) symbol = Some b ->
            Bar.get_date_time b = Bar.get_date_time b0).
  { intros symbol b E. apply get_Some_In in E. destruct E as [[= _ <-]|E].
    - reflexivity.
    - rewrite Forall_forall in A. exact (A _ E). }
  unfold Bars.get_bar, Bars.__getitem__, Bars.get_symbols, Bars.get_date_time.
  cbn [Bars.__bar_dict Bars.__date_time].
  split; [reflexivity|]. split; [exact G|]. split.
  - intros symbol b.
    destruct (get String.eqb ((s0, b0) :: rest) symbol) as [b'|] eqn:E;
      [|discriminate].
    intros [= <-]. exact (G symbol b' E).
  - split; [reflexivity | discriminate].
Qed.

Lemma bars_shared_timestamp_witness :
  exists t,
    t = Sample.t0
    /\ forall symbol b,
         Bars.get_bar
           (Bars.mk [("AAPL", Sample.flat Sample.t0 (Num.Int 1));
                     ("MSFT", Sample.flat Sample.t0 (Num.Int 2))] (Some Sample.t0))
           symbol = Some b ->
         Bar.get_date_time b = t.
Proof.
  destruct (bars_shared_timestamp
              [("AAPL", Sample.flat Sample.t0 (Num.Int 1));
               ("MSFT", Sample.flat Sample.t0 (Num.Int 2))]
              (Bars.mk [("AAPL", Sample.flat Sample.t0 (Num.Int 1));
                        ("MSFT", Sample.flat Sample.t0 (Num.Int 2))] (Some Sample.t0))
              eq_refl) as (t & T & G & _).
  exists t. split; [|exact G].
  simpl in T. now injection T as <-.
Defined.

(** X9. The iteration order of the mapping decides neither whether
    [Bars.__init__] succeeds nor the date of the collection: two
    mappings with the same items in different orders are both accepted
    or both refused, and when accepted the collections have the same
    date.  (Only the text of the refusal depends on the order.) *)
Theorem bars_init_order_independent (d d' : dict) :
  Permutation d d' ->
  raises (Bars.__init__ d) = raises (Bars.__init__ d')
  /\ forall bars bars',
       Bars.__init__ d = Ok bars -> Bars.__init__ d' = Ok bars' ->
       Bars.get_date_time bars = Bars.get_date_time bars'.
Proof.
  intro P.
  assert (Q : forall x y : dict, Permutation x y ->
                raises (Bars.__init__ x) = false ->
                raises (Bars.__init__ y) = false).
  { intros x y Pxy R. apply bars_init_ok_iff in R. destruct R as [N S].
    apply bars_init_ok_iff. split.
    - intros ->. apply Permutation_sym, Permutation_nil in Pxy. congruence.
    - intros kv kv' I I'. apply S; eapply Permutation_in;
        try eassumption; now apply Permutation_sym. }
  split.
  - destruct (raises (Bars.__init__ d)) eqn:R,
             (raises (Bars.__init__ d')) eqn:R'; try reflexivity.
    + apply (Q d' d) in R'; [congruence | now apply Permutation_sym].
    + apply (Q d d') in R; [congruence | exact P].
  - intros bars bars' I I'.
    assert (S : raises (Bars.__init__ d) = false) by now rewrite I.
    apply bars_init_ok_iff in S. destruct S as [_ S].
    apply bars_init_ok_inv in I, I'.
    destruct I as (s0 & b0 & rest & E & _ & ->).
    destruct I' as (s0' & b0' & rest' & E' & _ & ->).
    unfold Bars.get_date_time. simpl. f_equal.
    apply (S (s0, b0) (s0', b0')).
    + rewrite E. now left.
    + apply (Permutation_in _ (Permutation_sym P)). rewrite E'. now left.
Qed.

(** Two symbols at different dates are refused in either order. *)
Lemma bars_init_order_independent_witness :
  raises (Bars.__init__ [("AAPL", Sample.flat Sample.t0 (Num.Int 1));
                         ("GOOG", Sample.flat Sample.t1 (Num.Int 3))])
  = raises (Bars.__init__ [("GOOG", Sample.flat Sample.t1 (Num.Int 3));
                           ("AAPL", Sample.flat Sample.t0 (Num.Int 1))]).
Proof.
  apply (proj1 (bars_init_order_independent
                  [("AAPL", Sample.flat Sample.t0 (Num.Int 1));
                   ("GOOG", Sample.flat Sample.t1 (Num.Int 3))]
                  [("GOOG", Sample.flat Sample.t1 (Num.Int 3));
                   ("AAPL", Sample.flat Sample.t0 (Num.Int 1))]
                  (perm_swap _ _ _))).
Defined.

(** The refusals of the two orders differ in their text. *)
Example bars_init_order_changes_message :
  Bars.__init__ [("AAPL", Sample.flat Sample.t0 (Num.Int 1));
                 ("GOOG", Sample.flat Sample.t1 (Num.Int 3))]
  = Raise (Exception
      "Bar data times are not in sync. GOOG 2020-01-03 09:30:00 != AAPL 2020-01-02 09:30:00")
  /\ Bars.__init__ [("GOOG", Sample.flat Sample.t1 (Num.Int 3));
                    ("AAPL", Sample.flat Sample.t0 (Num.Int 1))]
  = Raise (Exception
      "Bar data times are not in sync. AAPL 2020-01-02 09:30:00 != GOOG 2020-01-03 09:30:00").
Proof. split; reflexivity. Qed.

(* ------------------------------------------------------------------ *)
(** ** Frequency: the domain of the two tables *)

(** X10. [FrequencyToStr] has an entry for the nine tokens of the class
    and for nothing else, and [StrToFrequency] for their nine names and
    for nothing else: indexing either table with any other key fails
    (Python's [KeyError]).  No name is shared by two tokens, so the
    second table has nine entries as the first. *)
Theorem frequency_tables_domain :
  (forall t, name_of t <> None <-> In t Frequency.tokens)
  /\ (forall name, token_of name <> None <-> In name (values FrequencyToStr))
  /\ keys FrequencyToStr = Frequency.tokens
  /\ keys StrToFrequency = values FrequencyToStr
  /\ values StrToFrequency = keys FrequencyToStr
  /\ NoDup (values FrequencyToStr)
  /\ len StrToFrequency = len FrequencyToStr.
Proof.
  split; [|split; [|split; [|split; [|split; [|split]]]]];
    try reflexivity.
  - intro t. split.
    + unfold name_of, FrequencyToStr. simpl.
      repeat match goal with
      | |- context [Frequency.token_eqb t ?k] =>
          destruct (Frequency.token_eqb t k) eqn:E;
            [apply token_eqb_eq in E; subst t; intros _; simpl; tauto
            | clear E]
      end.
      congruence.
    + simpl. intros I.
      repeat (destruct I as [<-|I]; [vm_compute; discriminate|]).
      contradiction.
  - intro name. split.
    + unfold token_of. cbv [StrToFrequency]. simpl.
      repeat match goal with
      | |- context [String.eqb name ?k] =>
          destruct (String.eqb_spec name k) as [->|_];
            [intros _; tauto|]
      end.
      congruence.
    + simpl. intros I.
      repeat (destruct I as [<-|I]; [vm_compute; discriminate|]).
      contradiction.
  - repeat constructor; simpl; intuition discriminate.
Qed.

(* ------------------------------------------------------------------ *)
(** ** Bar and Bars together *)

(** X11. Building a bar again from what the accessors of a bar return
    succeeds and gives the bar as it was first built: the same date and
    numbers, [session_close] back to [False] and the countdown back to
    [None], whatever session calls the bar has seen since. *)
Theorem bar_rebuild_from_accessors
    (dt : datetime) (o h l c v ac : Num.t) (b0 : Bar.t) (calls : list Life.call) :
  Bar.__init__ dt o h l c v ac = Ok b0 ->
  let b := Life.run_all b0 calls in
  Bar.__init__ (Bar.get_date_time b) (Bar.get_open b) (Bar.get_high b)
               (Bar.get_low b) (Bar.get_close b) (Bar.get_volume b)
               (Bar.get_adj_close b) = Ok b0
  /\ Bar.get_session_close b0 = false
  /\ Bar.get_bars_until_session_close b0 = None.
Proof.
  intros I b.
  destruct (run_all_keeps_prices calls b0) as (E1 & E2 & E3 & E4 & E5 & E6 & E7).
  fold b in E1, E2, E3, E4, E5, E6, E7.
  unfold Bar.get_date_time, Bar.get_open, Bar.get_high, Bar.get_low,
    Bar.get_close, Bar.get_volume, Bar.get_adj_close.
  rewrite E1, E2, E3, E4, E5, E6, E7.
  pose proof I as J. apply init_ok_inv in J. destruct J as [-> _].
  simpl. split; [exact I | split; reflexivity].
Qed.

Lemma bar_rebuild_from_accessors_witness :
  let b := Life.run_all (attempted Sample.t0 (Num.Int 10) (Num.Int 12) (Num.Int 9) (Num.Int 11)
               (Num.Int 1000) (Num.float_lit 11 (-1)))
             [Life.SetBarsUntilSessionClose (Some 2%Z);
              Life.SetSessionClose true] in
  Bar.get_session_close b = true
  /\ Bar.__init__ (Bar.get_date_time b) (Bar.get_open b) (Bar.get_high b)
                  (Bar.get_low b) (Bar.get_close b) (Bar.get_volume b)
                  (Bar.get_adj_close b)
     = Ok (attempted Sample.t0 (Num.Int 10) (Num.Int 12) (Num.Int 9) (Num.Int 11)
               (Num.Int 1000) (Num.float_lit 11 (-1))).
Proof.
  intro b. split; [reflexivity|].
  apply (bar_rebuild_from_accessors Sample.t0 (Num.Int 10) (Num.Int 12) (Num.Int 9)
           (Num.Int 11) (Num.Int 1000) (Num.float_lit 11 (-1))
           (attempted Sample.t0 (Num.Int 10) (Num.Int 12) (Num.Int 9) (Num.Int 11)
               (Num.Int 1000) (Num.float_lit 11 (-1)))
           [Life.SetBarsUntilSessionClose (Some 2%Z);
            Life.SetSessionClose true] eq_refl).
Defined.

(** X12. Session calls on the bars of a mapping never break its
    synchronisation: if [Bars.__init__] accepts a mapping, it accepts
    the mapping whose bars have since been through any calls of the two
    session methods, and the collection has the same date and the same
    symbols. *)
Theorem bars_init_after_session_calls
    (bar_dict : dict) (bars : Bars.t) (plan : string -> list Life.call) :
  Bars.__init__ bar_dict = Ok bars ->
  exists bars',
    Bars.__init__ (Life.annotate plan bar_dict) = Ok bars'
    /\ Bars.get_date_time bars' = Bars.get_date_time bars
    /\ Bars.get_symbols bars' = Bars.get_symbols bars.
Proof.
  intro I. apply bars_init_ok_inv in I.
  destruct I as (s0 & b0 & rest & -> & A & ->).
  exists (Bars.mk (Life.annotate plan ((s0, b0) :: rest))
                  (Some (Bar.get_date_time b0))).
  split; [|split].
  - unfold Bars.__init__, iteritems, Life.annotate. simpl.
    unfold Bar.get_date_time at 1.
    rewrite (proj1 (run_all_keeps_prices (plan s0) b0)).
    fold (Bar.get_date_time b0).
    rewrite check_sync_agree; [reflexivity|].
    apply Forall_forall. intros kv K. apply in_map_iff in K.
    destruct K as ([s b] & <- & K). simpl.
    unfold Bar.get_date_time at 1.
    rewrite (proj1 (run_all_keeps_prices (plan s) b)).
    rewrite Forall_forall in A. exact (A _ K).
  - reflexivity.
  - unfold Bars.get_symbols, Life.annotate, keys. simpl.
    f_equal. rewrite map_map. reflexivity.
Qed.

Lemma bars_init_after_session_calls_witness :
  exists bars',
    Bars.__init__
      (Life.annotate
         (fun symbol => if String.eqb symbol "MSFT"
                        then [Life.SetSessionClose true]
                        else [Life.SetBarsUntilSessionClose (Some 1%Z)])
         [("AAPL", Sample.flat Sample.t0 (Num.Int 1)); ("MSFT", Sample.flat Sample.t0 (Num.Int 2))])
    = Ok bars'
    /\ Bars.get_date_time bars' = Some Sample.t0
    /\ Bars.get_symbols bars' = ["AAPL"; "MSFT"].
Proof.
  apply (bars_init_after_session_calls
           [("AAPL", Sample.flat Sample.t0 (Num.Int 1)); ("MSFT", Sample.flat Sample.t0 (Num.Int 2))]
           (Bars.mk [("AAPL", Sample.flat Sample.t0 (Num.Int 1));
                     ("MSFT", Sample.flat Sample.t0 (Num.Int 2))] (Some Sample.t0))
           _ eq_refl).
Defined.

(* ------------------------------------------------------------------ *)
(** ** Bar: when a refusal is a report *)

(** The rendering raises only through [strftime] or ['%.2f']. *)
Lemma str_outcome (dt : datetime) (o h l c v ac : Num.t) :
  match Bar.__str__ (attempted dt o h l c v ac) with
  | Ok _ =>
      (1900 <= year dt)%N
      /\ raises (Num.to_float (Num.obj o)) = false
      /\ raises (Num.to_float (Num.obj h)) = false
      /\ raises (Num.to_float (Num.obj l)) = false
      /\ raises (Num.to_float (Num.obj c)) = false
  | Raise e =>
      (exists msg, e = ValueError msg) \/ (exists msg, e = OverflowError msg)
  end.
Proof.
  unfold Bar.__str__, strftime_Ymd_HM, Format.fmt_2f, attempted,
    Bar.get_date_time, Bar.get_open, Bar.get_high, Bar.get_low,
    Bar.get_close, Bar.get_volume. cbn [Bar.__date_time Bar.__open
    Bar.__high Bar.__low Bar.__close Bar.__volume].
  destruct (year dt <? 1900)%N eqn:Y; cbn [bind]; [left; eauto|].
  apply N.ltb_ge in Y.
  destruct (Num.to_float (Num.obj o)) eqn:O; cbn [bind];
    [|apply to_float_raises in O; tauto].
  destruct (Num.to_float (Num.obj h)) eqn:H; cbn [bind];
    [|apply to_float_raises in H; tauto].
  destruct (Num.to_float (Num.obj l)) eqn:L; cbn [bind];
    [|apply to_float_raises in L; tauto].
  destruct (Num.to_float (Num.obj c)) eqn:C; cbn [bind];
    [|apply to_float_raises in C; tauto].
  repeat split; assumption.
Qed.

(** X13. On prices that violate a rule, [Bar.__init__] raises an
    [AssertionError] exactly when the date is not before 1900 and each
    of open, high, low and close has a float (it is a float, or an int
    within the float range); otherwise what it raises is the exception
    of the rendering, which is never an [AssertionError].  The volume
    and the adjusted close play no part. *)
Theorem bar_init_report_or_escape (dt : datetime) (o h l c v ac : Num.t) :
  (exists r, ~ Rules.holds o h l c r) ->
  ((exists msg, Bar.__init__ dt o h l c v ac = Raise (AssertionError msg))
   <->
   (1900 <= year dt)%N
   /\ raises (Num.to_float (Num.obj o)) = false
   /\ raises (Num.to_float (Num.obj h)) = false
   /\ raises (Num.to_float (Num.obj l)) = false
   /\ raises (Num.to_float (Num.obj c)) = false)
  /\ (forall e, Bar.__str__ (attempted dt o h l c v ac) = Raise e ->
        Bar.__init__ dt o h l c v ac = Raise e).
Proof.
  intros [r0 V].
  assert (N : Rules.violated o h l c <> []).
  { intro E. apply V. now apply violated_nil. }
  pose proof (str_outcome dt o h l c v ac) as S.
  rewrite init_report.
  destruct (Rules.violated o h l c) as [|r rs]; [congruence|].
  destruct (Bar.__str__ (attempted dt o h l c v ac)) as [s|e] eqn:ES;
    cbn [bind].
  - split; [|discriminate]. split; [intros _; exact S | eauto].
  - split; [|intros e' [= <-]; reflexivity]. split.
    + intros [msg E]. injection E as ->.
      destruct S as [[m S]|[m S]]; discriminate S.
    + intros (Y & O & H & L & C).
      destruct (str_defined dt o h l c v ac Y O H L C) as [s' E'].
      congruence.
Qed.

(** The bar of ints with open [10 ** 400] above its high is refused
    with the exception of the rendering; with open 10 it is refused
    with a report. *)
Lemma bar_init_report_or_escape_witness :
  (exists msg,
     Bar.__init__ Sample.t0 (Num.Int 10) (Num.Int 5) (Num.Int 1) (Num.Int 8)
                  (Num.Int 100) (Num.Int 8) = Raise (AssertionError msg))
  /\ ~ (exists msg,
         Bar.__init__ Sample.t0 (Num.Int (10 ^ 400)) (Num.Int 5) (Num.Int 1)
                      (Num.Int 8) (Num.Int 100) (Num.Int 8)
         = Raise (AssertionError msg)).
Proof.
  assert (V1 : exists r, ~ Rules.holds (Num.Int 10) (Num.Int 5) (Num.Int 1)
                           (Num.Int 8) r).
  { exists Rules.H_ge_O. vm_compute. intro H. apply H. reflexivity. }
  assert (V2 : exists r, ~ Rules.holds (Num.Int (10 ^ 400)) (Num.Int 5)
                           (Num.Int 1) (Num.Int 8) r).
  { exists Rules.H_ge_O. vm_compute. intro H. apply H. reflexivity. }
  split.
  - apply (proj1 (bar_init_report_or_escape Sample.t0 (Num.Int 10) (Num.Int 5)
                    (Num.Int 1) (Num.Int 8) (Num.Int 100) (Num.Int 8) V1)).
    repeat split; vm_compute; discriminate.
  - intro A.
    apply (proj1 (bar_init_report_or_escape Sample.t0 (Num.Int (10 ^ 400))
                    (Num.Int 5) (Num.Int 1) (Num.Int 8) (Num.Int 100)
                    (Num.Int 8) V2)) in A.
    destruct A as (_ & O & _). vm_compute in O. discriminate O.
Defined.
